(** * pubmedmcp.sdk: the EInfo and ESearch endpoint functions

    A shallow embedding of [src/pubmedmcp/sdk.py].  The two endpoint
    functions are asynchronous Python functions that check the requested
    return mode, dump the request model to query parameters, await one
    [client.get], check the HTTP status and validate the body.  They are
    embedded in a state-and-exception monad over a world that holds the
    caller-supplied HTTP client and the log of GET requests issued on it. *)

From Stdlib Require Import ZArith.
From stdpp Require Import base option list strings gmap fin_maps.

Local Open Scope Z_scope.

(** ** pubmedmcp.models *)

(** Modelled from the spec: [pubmedmcp/models.py] (RetMode, EInfoRequest,
    ESearchRequest) is imported by [sdk.py] and not part of the sources at
    hand.  The return mode is an enumeration of response encodings, of which
    the spec names JSON, XML and plain text. *)
Inductive RetMode := JSON | XML | TEXT.

#[global] Instance RetMode_eq_dec : EqDecision RetMode.
Proof. solve_decision. Defined.

(** The Python values a request field can hold once it is not [None]. *)
Inductive Value :=
  | VStr (s : string)
  | VInt (z : Z)
  | VRetMode (m : RetMode).

#[global] Instance Value_eq_dec : EqDecision Value.
Proof. solve_decision. Defined.

(** A keyword argument of a model constructor: left out by the caller, or
    given (possibly as an explicit [None]). *)
Inductive Arg (A : Type) :=
  | Omitted
  | Given (v : option A).
Arguments Omitted {A}.
Arguments Given {A} v.

(** The field value a keyword argument leads to: the field's default when
    the argument is left out. *)
Definition arg_value {A} (default : option A) (a : Arg A) : option A :=
  match a with
  | Omitted => default
  | Given v => v
  end.

(** The contribution of a keyword argument to pydantic's
    [model_fields_set]. *)
Definition arg_set {A} (name : string) (a : Arg A) : gset string :=
  match a with
  | Omitted => ∅
  | Given _ => {[ name ]}
  end.

(** What the endpoint functions use of pydantic's [BaseModel]: the fields
    of an instance in declaration order, each with its current value
    ([None] for a field holding no value), and the names of the fields the
    caller provided explicitly. *)
Class BaseModel (T : Type) := {
  model_fields : T → list (string * option Value);
  model_fields_set : T → gset string;
}.

(** [getattr m name]: the value of field [name] of [m]; the outer [None]
    means that [m] has no such field. *)
Definition getattr `{BaseModel T} (m : T) (name : string) : option (option Value) :=
  (λ found, found.2.2) <$> list_find (λ kv, kv.1 = name) (model_fields m).

(** The items of a field list that hold a value other than [None]. *)
Definition items_exclude_none (fields : list (string * option Value))
    : list (string * Value) :=
  omap (λ kv, (λ v, (kv.1, v)) <$> kv.2) fields.

(** [m.model_dump(exclude_none=True)]: the dictionary of the fields whose
    value is not [None]. *)
Definition model_dump_exclude_none `{BaseModel T} (m : T) : gmap string Value :=
  list_to_map (items_exclude_none (model_fields m)).

(** Modelled from the spec: the EInfo request model of [pubmedmcp/models.py],
    with an optional database name, an optional API version and an optional
    return mode that defaults to JSON. *)
Module EInfoRequest.
Record t := mk {
  db : option string;
  version : option string;
  retmode : option RetMode;
  fields_set : gset string;
}.

(** [EInfoRequest(db=..., version=..., retmode=...)]. *)
Definition new (a_db a_version : Arg string) (a_retmode : Arg RetMode) : t :=
  {| db := arg_value None a_db;
     version := arg_value None a_version;
     retmode := arg_value (Some JSON) a_retmode;
     fields_set :=
       arg_set "db" a_db ∪ arg_set "version" a_version
       ∪ arg_set "retmode" a_retmode |}.

Definition fields (r : t) : list (string * option Value) :=
  [ ("db", VStr <$> db r);
    ("version", VStr <$> version r);
    ("retmode", VRetMode <$> retmode r) ].
End EInfoRequest.

#[global] Instance EInfoRequest_model : BaseModel EInfoRequest.t :=
  {| model_fields := EInfoRequest.fields;
     model_fields_set := EInfoRequest.fields_set |}.

(** Modelled from the spec: the ESearch request model of
    [pubmedmcp/models.py], with the fields the spec lists for it: database
    name, term, return mode (JSON unless given), pagination, date range and
    the history flag.  The spec gives no default for the database name and
    the pagination; they are taken as those of ESearch itself ([pubmed],
    [0] and [20]), and no property below depends on them. *)
Module ESearchRequest.
Record t := mk {
  db : option string;
  term : option string;
  retmode : option RetMode;
  retstart : option Z;
  retmax : option Z;
  datetype : option string;
  mindate : option string;
  maxdate : option string;
  usehistory : option string;
  fields_set : gset string;
}.

(** The keyword arguments of [ESearchRequest(...)]. *)
Record kwargs := mk_kwargs {
  a_db : Arg string;
  a_term : Arg string;
  a_retmode : Arg RetMode;
  a_retstart : Arg Z;
  a_retmax : Arg Z;
  a_datetype : Arg string;
  a_mindate : Arg string;
  a_maxdate : Arg string;
  a_usehistory : Arg string;
}.

Definition new (k : kwargs) : t :=
  {| db := arg_value (Some "pubmed") (a_db k);
     term := arg_value None (a_term k);
     retmode := arg_value (Some JSON) (a_retmode k);
     retstart := arg_value (Some 0) (a_retstart k);
     retmax := arg_value (Some 20) (a_retmax k);
     datetype := arg_value None (a_datetype k);
     mindate := arg_value None (a_mindate k);
     maxdate := arg_value None (a_maxdate k);
     usehistory := arg_value None (a_usehistory k);
     fields_set :=
       arg_set "db" (a_db k) ∪ arg_set "term" (a_term k)
       ∪ arg_set "retmode" (a_retmode k)
       ∪ arg_set "retstart" (a_retstart k)
       ∪ arg_set "retmax" (a_retmax k)
       ∪ arg_set "datetype" (a_datetype k)
       ∪ arg_set "mindate" (a_mindate k)
       ∪ arg_set "maxdate" (a_maxdate k)
       ∪ arg_set "usehistory" (a_usehistory k) |}.

Definition fields (r : t) : list (string * option Value) :=
  [ ("db", VStr <$> db r);
    ("term", VStr <$> term r);
    ("retmode", VRetMode <$> retmode r);
    ("retstart", VInt <$> retstart r);
    ("retmax", VInt <$> retmax r);
    ("datetype", VStr <$> datetype r);
    ("mindate", VStr <$> mindate r);
    ("maxdate", VStr <$> maxdate r);
    ("usehistory", VStr <$> usehistory r) ].
End ESearchRequest.

#[global] Instance ESearchRequest_model : BaseModel ESearchRequest.t :=
  {| model_fields := ESearchRequest.fields;
     model_fields_set := ESearchRequest.fields_set |}.

(** ** httpx *)

(** An [httpx.Response] as far as the endpoint functions look at it. *)
Record Response := mkResponse {
  status_code : Z;
  text : string;
}.

(** The exceptions that leave an endpoint function, one constructor for
    each place they are raised at: the [ValueError] of the mode check,
    whatever [client.get] raises, the [HTTPStatusError] of
    [raise_for_status], and the [ValidationError] of [model_validate_json].
    A constructor names the place, not every Python class the exception is
    an instance of (pydantic's [ValidationError] is a [ValueError] too). *)
Inductive Exception :=
  | ValueError (msg : string)
  | RequestError (msg : string)
  | HTTPStatusError (response : Response)
  | ValidationError (msg : string).

Inductive Result (A : Type) :=
  | Raise (e : Exception)
  | Return (a : A).
Arguments Raise {A} e.
Arguments Return {A} a.

(** The caller-supplied [httpx.AsyncClient]: some state of its own and a
    [get] that answers a URL and query parameters with a response, or fails
    with a transport error ([httpx.RequestError]), and moves to a next
    state. *)
Class AsyncClient := {
  ClientState : Type;
  client_get :
    ClientState → string → gmap string Value → (string + Response) * ClientState;
}.

(** The world an endpoint function runs in: the client, and the GET requests
    issued on it so far, oldest first. *)
Record World `{AsyncClient} := mkWorld {
  client : ClientState;
  calls : list (string * gmap string Value);
}.

(** Computations that read and update the world and may raise. *)
Definition M `{AsyncClient} (A : Type) : Type := World → Result A * World.

Definition ret `{AsyncClient} {A} (a : A) : M A := λ w, (Return a, w).

Definition raise `{AsyncClient} {A} (e : Exception) : M A := λ w, (Raise e, w).

Definition bind `{AsyncClient} {A B} (m : M A) (k : A → M B) : M B :=
  λ w, match m w with
       | (Return a, w') => k a w'
       | (Raise e, w') => (Raise e, w')
       end.

Notation "'let*' x := m 'in' k" := (bind m (λ x, k))
  (at level 10, x name, m at level 100, k at level 200).

(** [await client.get(url, params=query_params)]. *)
Definition get `{AsyncClient} (url : string) (query_params : gmap string Value)
    : M Response :=
  λ w, let '(outcome, c) := client_get (client w) url query_params in
       let w' := {| client := c; calls := calls w ++ [(url, query_params)] |} in
       match outcome with
       | inl msg => (Raise (RequestError msg), w')
       | inr response => (Return response, w')
       end.

(** [response.is_success]: a 2xx status. *)
Definition is_success (response : Response) : bool :=
  bool_decide (200 ≤ status_code response ≤ 299).

(** [response.raise_for_status()]: raises [HTTPStatusError], which carries
    the response, unless the status is a success. *)
Definition raise_for_status `{AsyncClient} (response : Response) : M unit :=
  if is_success response then ret ()
  else raise (HTTPStatusError response).

(** ** pubmedmcp.sdk *)

(** What [sdk.py] takes from [pubmedmcp/models.py] beyond the request
    models: how a return mode is rendered by an f-string, the two response
    models, and their [model_validate_json], which gives the validated model
    or the description of a validation error. *)
Class Models := {
  RetMode_format : RetMode → string;
  EInfoResponse : Type;
  ESearchResponse : Type;
  EInfoResponse_model_validate_json : string → string + EInfoResponse;
  ESearchResponse_model_validate_json : string → string + ESearchResponse;
}.

(** An interpolation [{params.retmode}] of an f-string. *)
Definition fstring `{Models} (retmode : option RetMode) : string :=
  match retmode with
  | None => "None"
  | Some m => RetMode_format m
  end.

(** [Model.model_validate_json(text)] as a computation: a body that does
    not conform raises pydantic's [ValidationError]. *)
Definition model_validate_json `{AsyncClient} {A} (validate : string → string + A)
    (body : string) : M A :=
  match validate body with
  | inl msg => raise (ValidationError msg)
  | inr model => ret model
  end.

Definition BASE_URL : string := "https://eutils.ncbi.nlm.nih.gov/entrez/eutils".

Definition einfo `{Models} `{AsyncClient} (params : EInfoRequest.t) : M EInfoResponse :=
  if bool_decide (EInfoRequest.retmode params ≠ Some JSON) then
    raise (ValueError
      ("We only support " +:+ fstring (Some JSON)
       +:+ " return mode for EInfo at this time. You provided "
       +:+ fstring (EInfoRequest.retmode params) +:+ "."))
  else
    let base_url := BASE_URL +:+ "/einfo.fcgi" in
    let query_params := model_dump_exclude_none params in
    let* response := get base_url query_params in
    let* _ := raise_for_status response in
    model_validate_json EInfoResponse_model_validate_json (text response).

Definition esearch `{Models} `{AsyncClient} (params : ESearchRequest.t)
    : M ESearchResponse :=
  if bool_decide (ESearchRequest.retmode params ≠ Some JSON) then
    raise (ValueError
      ("We only support " +:+ fstring (Some JSON)
       +:+ " return mode for ESearch at this time. You provided "
       +:+ fstring (ESearchRequest.retmode params) +:+ "."))
  else
    let base_url := BASE_URL +:+ "/esearch.fcgi" in
    let query_params := model_dump_exclude_none params in
    let* response := get base_url query_params in
    let* _ := raise_for_status response in
    model_validate_json ESearchResponse_model_validate_json (text response).

(** ** The shared protocol *)

(** The protocol the two endpoint functions share, with the endpoint's name,
    its path suffix and its response model's validation as parameters:
    precondition check on the return mode, transport call with the query
    parameters built from the request, status check, body parsing, return. *)
Definition endpoint_protocol `{Models} `{AsyncClient} {A} (name path : string)
    (validate : string → string + A) (retmode : option RetMode)
    (query_params : gmap string Value) : M A :=
  if bool_decide (retmode ≠ Some JSON) then
    raise (ValueError
      ("We only support " +:+ fstring (Some JSON)
       +:+ " return mode for " +:+ name +:+ " at this time. You provided "
       +:+ fstring retmode +:+ "."))
  else
    let* response := get (BASE_URL +:+ "/" +:+ path) query_params in
    let* _ := raise_for_status response in
    model_validate_json validate (text response).




(** [mentions msg part]: the text [part] occurs in the message [msg]. *)
Definition mentions (msg part : string) : Prop :=
  ∃ pre post, msg = pre +:+ part +:+ post.

(** ** A mock transport and mock response models *)

(** A client that answers every GET with the same outcome. *)
Definition mock_client (outcome : string + Response) : AsyncClient :=
  {| ClientState := unit;
     client_get := λ _ _ _, (outcome, ()) |}.

(** Response models that are lists of strings, with a validation that
    accepts every body but the empty one. *)
Definition mock_validate (body : string) : string + list string :=
  if decide (body = "") then inl "invalid JSON" else inr [body].

Definition mock_models : Models :=
  {| RetMode_format := λ m, match m with
                            | JSON => "json"
                            | XML => "xml"
                            | TEXT => "text"
                            end;
     EInfoResponse := list string;
     ESearchResponse := list string;
     EInfoResponse_model_validate_json := mock_validate;
     ESearchResponse_model_validate_json := mock_validate |}.



(** A world in which nothing has been requested yet. *)
Definition fresh_world (outcome : string + Response)
    : @World (mock_client outcome) :=
  @mkWorld (mock_client outcome) () [].

(** [EInfoRequest()]. *)
Definition EInfoRequest_default : EInfoRequest.t :=
  EInfoRequest.new Omitted Omitted Omitted.

(** [EInfoRequest(retmode=RetMode.XML)]. *)
Definition EInfoRequest_xml : EInfoRequest.t :=
  EInfoRequest.new Omitted Omitted (Given (Some XML)).

(** [EInfoRequest(retmode=None)]. *)
Definition EInfoRequest_none : EInfoRequest.t :=
  EInfoRequest.new Omitted Omitted (Given None).

(** [ESearchRequest(term="asthma")]. *)
Definition ESearchRequest_asthma : ESearchRequest.t :=
  ESearchRequest.new
    (ESearchRequest.mk_kwargs Omitted (Given (Some "asthma")) Omitted Omitted
       Omitted Omitted Omitted Omitted Omitted).

(** [ESearchRequest(term="asthma", retmode=RetMode.XML)]. *)
Definition ESearchRequest_asthma_xml : ESearchRequest.t :=
  ESearchRequest.new
    (ESearchRequest.mk_kwargs Omitted (Given (Some "asthma"))
       (Given (Some XML)) Omitted Omitted Omitted Omitted Omitted Omitted).

(** [ESearchRequest(term="asthma", retmode=None)]. *)
Definition ESearchRequest_asthma_none : ESearchRequest.t :=
  ESearchRequest.new
    (ESearchRequest.mk_kwargs Omitted (Given (Some "asthma"))
       (Given None) Omitted Omitted Omitted Omitted Omitted Omitted).

(** * Properties *)

(** ** Strings and messages *)

Lemma append_assoc (a b c : string) : (a +:+ b) +:+ c = a +:+ b +:+ c.
Proof.
  induction a as [|ch a IH]; [reflexivity|].
  change (String ch ((a +:+ b) +:+ c) = String ch (a +:+ b +:+ c)).
  by f_equal.
Qed.

Lemma mentions_prefix (part post : string) : mentions (part +:+ post) part.
Proof. by exists "", post. Qed.

Lemma mentions_append (a msg part : string) :
  mentions msg part → mentions (a +:+ msg) part.
Proof.
  intros (pre & post & ->). exists (a +:+ pre), post.
  by rewrite append_assoc.
Qed.

Create HintDb mentions.
#[local] Hint Resolve mentions_prefix mentions_append : mentions.

(** ** Running the endpoint functions *)

Section run.
Context `{Models} `{AsyncClient}.

Lemma einfo_protocol (params : EInfoRequest.t) :
  einfo params =
  endpoint_protocol "EInfo" "einfo.fcgi" EInfoResponse_model_validate_json
    (EInfoRequest.retmode params) (model_dump_exclude_none params).
Proof. reflexivity. Qed.

Lemma esearch_protocol (params : ESearchRequest.t) :
  esearch params =
  endpoint_protocol "ESearch" "esearch.fcgi" ESearchResponse_model_validate_json
    (ESearchRequest.retmode params) (model_dump_exclude_none params).
Proof. reflexivity. Qed.

(** The precondition check fails: the call raises and leaves the world as
    it found it. *)
Lemma protocol_unsupported {A} name path (validate : string → string + A)
    retmode query_params (w : World) :
  retmode ≠ Some JSON →
  endpoint_protocol name path validate retmode query_params w =
  (Raise (ValueError
     ("We only support " +:+ fstring (Some JSON)
      +:+ " return mode for " +:+ name +:+ " at this time. You provided "
      +:+ fstring retmode +:+ ".")), w).
Proof.
  intros Hne. unfold endpoint_protocol.
  by rewrite bool_decide_eq_true_2.
Qed.

(** The precondition check passes: one GET, then the outcome of the
    transport, the status and the validation decide. *)
Lemma protocol_json {A} name path (validate : string → string + A)
    query_params (w : World) :
  endpoint_protocol name path validate (Some JSON) query_params w =
  (match (client_get (client w) (BASE_URL +:+ "/" +:+ path) query_params).1 with
   | inl msg => Raise (RequestError msg)
   | inr response =>
       if is_success response then
         match validate (text response) with
         | inl msg => Raise (ValidationError msg)
         | inr model => Return model
         end
       else Raise (HTTPStatusError response)
   end,
   {| client := (client_get (client w) (BASE_URL +:+ "/" +:+ path) query_params).2;
      calls := calls w ++ [(BASE_URL +:+ "/" +:+ path, query_params)] |}).
Proof.
  unfold endpoint_protocol.
  rewrite bool_decide_eq_false_2 by (intros Hne; by apply Hne).
  unfold bind, get, raise_for_status, model_validate_json.
  destruct (client_get _ _ _) as [[msg|response] c]; simpl; [reflexivity|].
  destruct (is_success response); simpl; [|reflexivity].
  by destruct (validate (text response)).
Qed.

(** The GET requests a call adds to the log. *)
Lemma protocol_calls {A} name path (validate : string → string + A)
    retmode query_params (w : World) :
  calls (endpoint_protocol name path validate retmode query_params w).2 =
  calls w ++
    (if decide (retmode = Some JSON)
     then [(BASE_URL +:+ "/" +:+ path, query_params)] else []).
Proof.
  destruct (decide (retmode = Some JSON)) as [->|Hne].
  - by rewrite protocol_json.
  - rewrite protocol_unsupported by done. simpl. by rewrite app_nil_r.
Qed.

Lemma log_grows {B} (l : list B) (x : B) : l ++ [x] ≠ l.
Proof.
  intros Heq. apply (f_equal length) in Heq.
  rewrite length_app in Heq. simpl in Heq. lia.
Qed.
End run.

(** ** The return-mode precondition *)

(** C1: a request whose return mode is set and is not JSON makes [einfo] and
    [esearch] raise a [ValueError] whose message names the endpoint and the
    rejected mode; the world is left as it was, so nothing was requested of
    the client. *)
Theorem unsupported_mode_raises_before_get `{Models} `{AsyncClient} :
  (∀ (params : EInfoRequest.t) (w : World),
     EInfoRequest.retmode params ≠ None →
     EInfoRequest.retmode params ≠ Some JSON →
     ∃ msg, einfo params w = (Raise (ValueError msg), w)
            ∧ mentions msg "EInfo"
            ∧ mentions msg (fstring (EInfoRequest.retmode params)))
  ∧ (∀ (params : ESearchRequest.t) (w : World),
       ESearchRequest.retmode params ≠ None →
       ESearchRequest.retmode params ≠ Some JSON →
       ∃ msg, esearch params w = (Raise (ValueError msg), w)
              ∧ mentions msg "ESearch"
              ∧ mentions msg (fstring (ESearchRequest.retmode params))).
Proof.
  split; intros params w _ Hne; eexists; (split; [|split]).
  - rewrite einfo_protocol. by apply protocol_unsupported.
  - auto 10 with mentions.
  - auto 10 with mentions.
  - rewrite esearch_protocol. by apply protocol_unsupported.
  - auto 10 with mentions.
  - auto 10 with mentions.
Qed.

Lemma unsupported_mode_raises_before_get_witness :
  let outcome := inr (mkResponse 200 "{}") in
  (∃ msg, @einfo mock_models (mock_client outcome) EInfoRequest_xml
            (fresh_world outcome)
          = (Raise (ValueError msg), fresh_world outcome)
          ∧ mentions msg "EInfo" ∧ mentions msg "xml")
  ∧ (∃ msg, @esearch mock_models (mock_client outcome) ESearchRequest_asthma_xml
              (fresh_world outcome)
            = (Raise (ValueError msg), fresh_world outcome)
            ∧ mentions msg "ESearch" ∧ mentions msg "xml").
Proof.
  intros outcome.
  destruct (@unsupported_mode_raises_before_get mock_models (mock_client outcome))
    as [Heinfo Hesearch].
  split.
  - apply (Heinfo EInfoRequest_xml (fresh_world outcome)); discriminate.
  - apply (Hesearch ESearchRequest_asthma_xml (fresh_world outcome)); discriminate.
Defined.

(** C10: a request whose return mode is [None] makes [einfo] and [esearch]
    raise the same [ValueError] as a non-JSON mode does, with [None] as the
    rejected value and the world left as it was; a call adds a GET to the
    log exactly when the return mode equals JSON. *)
Theorem unset_mode_raises_like_non_json `{Models} `{AsyncClient} :
  (∀ (params : EInfoRequest.t) (w : World),
     EInfoRequest.retmode params = None →
     einfo params w =
     (Raise (ValueError
        ("We only support " +:+ fstring (Some JSON)
         +:+ " return mode for EInfo at this time. You provided None.")), w))
  ∧ (∀ (params : ESearchRequest.t) (w : World),
       ESearchRequest.retmode params = None →
       esearch params w =
       (Raise (ValueError
          ("We only support " +:+ fstring (Some JSON)
           +:+ " return mode for ESearch at this time. You provided None.")), w))
  ∧ (∀ (params : EInfoRequest.t) (w : World),
       calls (einfo params w).2 ≠ calls w
       ↔ EInfoRequest.retmode params = Some JSON)
  ∧ (∀ (params : ESearchRequest.t) (w : World),
       calls (esearch params w).2 ≠ calls w
       ↔ ESearchRequest.retmode params = Some JSON).
Proof.
  split; [|split; [|split]].
  - intros params w Hnone.
    rewrite einfo_protocol, Hnone. by rewrite protocol_unsupported.
  - intros params w Hnone.
    rewrite esearch_protocol, Hnone. by rewrite protocol_unsupported.
  - intros params w. rewrite einfo_protocol, protocol_calls.
    case_decide as Hjson.
    + split; [done | intros _; apply log_grows].
    + rewrite app_nil_r. split; [by intros [] | done].
  - intros params w. rewrite esearch_protocol, protocol_calls.
    case_decide as Hjson.
    + split; [done | intros _; apply log_grows].
    + rewrite app_nil_r. split; [by intros [] | done].
Qed.

Lemma unset_mode_raises_like_non_json_witness :
  let outcome := inr (mkResponse 200 "{}") in
  @einfo mock_models (mock_client outcome) EInfoRequest_none (fresh_world outcome)
  = (Raise (ValueError
       "We only support json return mode for EInfo at this time. You provided None."),
     fresh_world outcome)
  ∧ @esearch mock_models (mock_client outcome) ESearchRequest_asthma_none
      (fresh_world outcome)
    = (Raise (ValueError
         "We only support json return mode for ESearch at this time. You provided None."),
       fresh_world outcome).
Proof.
  intros outcome.
  destruct (@unset_mode_raises_like_non_json mock_models (mock_client outcome))
    as (Heinfo & Hesearch & _).
  split.
  - apply (Heinfo EInfoRequest_none (fresh_world outcome)). reflexivity.
  - apply (Hesearch ESearchRequest_asthma_none (fresh_world outcome)). reflexivity.
Defined.

(** ** The transport call *)

(** C6: a call that passes the precondition check issues its GET to the
    endpoint's URL under the Entrez base URL, with the query parameters
    dumped from the request. *)
Theorem get_targets_endpoint_url `{Models} `{AsyncClient} :
  (∀ (params : EInfoRequest.t) (w : World),
     EInfoRequest.retmode params = Some JSON →
     calls (einfo params w).2 =
     calls w ++ [("https://eutils.ncbi.nlm.nih.gov/entrez/eutils/einfo.fcgi",
                  model_dump_exclude_none params)])
  ∧ (∀ (params : ESearchRequest.t) (w : World),
       ESearchRequest.retmode params = Some JSON →
       calls (esearch params w).2 =
       calls w ++ [("https://eutils.ncbi.nlm.nih.gov/entrez/eutils/esearch.fcgi",
                    model_dump_exclude_none params)]).
Proof.
  split; intros params w Hjson.
  - rewrite einfo_protocol, protocol_calls. by rewrite decide_True.
  - rewrite esearch_protocol, protocol_calls. by rewrite decide_True.
Qed.

Lemma get_targets_endpoint_url_witness :
  let outcome := inr (mkResponse 200 "{}") in
  calls (@einfo mock_models (mock_client outcome) EInfoRequest_default
           (fresh_world outcome)).2
  = [("https://eutils.ncbi.nlm.nih.gov/entrez/eutils/einfo.fcgi",
      model_dump_exclude_none EInfoRequest_default)]
  ∧ calls (@esearch mock_models (mock_client outcome) ESearchRequest_asthma
             (fresh_world outcome)).2
    = [("https://eutils.ncbi.nlm.nih.gov/entrez/eutils/esearch.fcgi",
        model_dump_exclude_none ESearchRequest_asthma)].
Proof.
  intros outcome.
  destruct (@get_targets_endpoint_url mock_models (mock_client outcome))
    as [Heinfo Hesearch].
  split.
  - apply (Heinfo EInfoRequest_default (fresh_world outcome)). reflexivity.
  - apply (Hesearch ESearchRequest_asthma (fresh_world outcome)). reflexivity.
Defined.

(** C7: a call adds at most one GET to the log, exactly one when the
    precondition check passes, and it returns a value only after having
    issued its GET. *)
Theorem at_most_one_get `{Models} `{AsyncClient} :
  (∀ (params : EInfoRequest.t) (w : World),
     ∃ issued, calls (einfo params w).2 = calls w ++ issued
       ∧ (length issued ≤ 1)%nat
       ∧ (length issued = 1%nat ↔ EInfoRequest.retmode params = Some JSON)
       ∧ (∀ model, (einfo params w).1 = Return model → length issued = 1%nat))
  ∧ (∀ (params : ESearchRequest.t) (w : World),
       ∃ issued, calls (esearch params w).2 = calls w ++ issued
         ∧ (length issued ≤ 1)%nat
         ∧ (length issued = 1%nat ↔ ESearchRequest.retmode params = Some JSON)
         ∧ (∀ model, (esearch params w).1 = Return model → length issued = 1%nat)).
Proof.
  split; intros params w.
  - rewrite einfo_protocol.
    eexists. split; [apply protocol_calls|].
    case_decide as Hjson; simpl.
    + repeat split; auto.
    + split; [lia|]. split; [split; [discriminate | done]|].
      intros model. by rewrite protocol_unsupported.
  - rewrite esearch_protocol.
    eexists. split; [apply protocol_calls|].
    case_decide as Hjson; simpl.
    + repeat split; auto.
    + split; [lia|]. split; [split; [discriminate | done]|].
      intros model. by rewrite protocol_unsupported.
Qed.

Lemma at_most_one_get_witness :
  let outcome := inr (mkResponse 200 "{}") in
  ∃ issued,
    calls (@einfo mock_models (mock_client outcome) EInfoRequest_default
             (fresh_world outcome)).2 = [] ++ issued
    ∧ (length issued ≤ 1)%nat
    ∧ (length issued = 1%nat ↔ Some JSON = Some JSON)
    ∧ (∀ model, (@einfo mock_models (mock_client outcome) EInfoRequest_default
                   (fresh_world outcome)).1 = Return model →
                length issued = 1%nat).
Proof.
  intros outcome.
  exact (proj1 (@at_most_one_get mock_models (mock_client outcome))
           EInfoRequest_default (fresh_world outcome)).
Defined.

(** ** Status check, body parsing, return *)

(** C4: when the response to the GET has a 4xx or 5xx status, [einfo] and
    [esearch] raise an [HTTPStatusError] carrying that response, hence its
    status code and its body, whatever the body is. *)
Theorem error_status_raises `{Models} `{AsyncClient} :
  (∀ (params : EInfoRequest.t) (w : World) (response : Response) c,
     EInfoRequest.retmode params = Some JSON →
     client_get (client w) (BASE_URL +:+ "/einfo.fcgi")
       (model_dump_exclude_none params) = (inr response, c) →
     400 ≤ status_code response ≤ 599 →
     (einfo params w).1 = Raise (HTTPStatusError response))
  ∧ (∀ (params : ESearchRequest.t) (w : World) (response : Response) c,
       ESearchRequest.retmode params = Some JSON →
       client_get (client w) (BASE_URL +:+ "/esearch.fcgi")
         (model_dump_exclude_none params) = (inr response, c) →
       400 ≤ status_code response ≤ 599 →
       (esearch params w).1 = Raise (HTTPStatusError response)).
Proof.
  split; intros params w response c Hjson Hget Hstatus.
  - rewrite einfo_protocol, Hjson, protocol_json.
    change (BASE_URL +:+ "/" +:+ "einfo.fcgi") with (BASE_URL +:+ "/einfo.fcgi").
    rewrite Hget. simpl. unfold is_success.
    rewrite bool_decide_eq_false_2 by lia. reflexivity.
  - rewrite esearch_protocol, Hjson, protocol_json.
    change (BASE_URL +:+ "/" +:+ "esearch.fcgi") with (BASE_URL +:+ "/esearch.fcgi").
    rewrite Hget. simpl. unfold is_success.
    rewrite bool_decide_eq_false_2 by lia. reflexivity.
Qed.

Lemma error_status_raises_witness :
  let response := mkResponse 404 "{}" in
  (@einfo mock_models (mock_client (inr response)) EInfoRequest_default
     (fresh_world (inr response))).1 = Raise (HTTPStatusError response)
  ∧ (@esearch mock_models (mock_client (inr response)) ESearchRequest_asthma
       (fresh_world (inr response))).1 = Raise (HTTPStatusError response).
Proof.
  intros response.
  destruct (@error_status_raises mock_models (mock_client (inr response)))
    as [Heinfo Hesearch].
  split.
  - apply (Heinfo EInfoRequest_default (fresh_world (inr response)) response ());
      [reflexivity | reflexivity | simpl; lia].
  - apply (Hesearch ESearchRequest_asthma (fresh_world (inr response)) response ());
      [reflexivity | reflexivity | simpl; lia].
Defined.

(** C5: when the response to the GET has a success status and its body does
    not conform to the endpoint's response model, [einfo] and [esearch]
    raise the [ValidationError] of the validation and return no model. *)
Theorem invalid_body_raises `{Models} `{AsyncClient} :
  (∀ (params : EInfoRequest.t) (w : World) (response : Response) c msg,
     EInfoRequest.retmode params = Some JSON →
     client_get (client w) (BASE_URL +:+ "/einfo.fcgi")
       (model_dump_exclude_none params) = (inr response, c) →
     200 ≤ status_code response ≤ 299 →
     EInfoResponse_model_validate_json (text response) = inl msg →
     (einfo params w).1 = Raise (ValidationError msg))
  ∧ (∀ (params : ESearchRequest.t) (w : World) (response : Response) c msg,
       ESearchRequest.retmode params = Some JSON →
       client_get (client w) (BASE_URL +:+ "/esearch.fcgi")
         (model_dump_exclude_none params) = (inr response, c) →
       200 ≤ status_code response ≤ 299 →
       ESearchResponse_model_validate_json (text response) = inl msg →
       (esearch params w).1 = Raise (ValidationError msg)).
Proof.
  split; intros params w response c msg Hjson Hget Hstatus Hinvalid.
  - rewrite einfo_protocol, Hjson, protocol_json.
    change (BASE_URL +:+ "/" +:+ "einfo.fcgi") with (BASE_URL +:+ "/einfo.fcgi").
    rewrite Hget. simpl. unfold is_success.
    rewrite bool_decide_eq_true_2 by lia. by rewrite Hinvalid.
  - rewrite esearch_protocol, Hjson, protocol_json.
    change (BASE_URL +:+ "/" +:+ "esearch.fcgi") with (BASE_URL +:+ "/esearch.fcgi").
    rewrite Hget. simpl. unfold is_success.
    rewrite bool_decide_eq_true_2 by lia. by rewrite Hinvalid.
Qed.

Lemma invalid_body_raises_witness :
  let response := mkResponse 200 "" in
  (@einfo mock_models (mock_client (inr response)) EInfoRequest_default
     (fresh_world (inr response))).1 = Raise (ValidationError "invalid JSON")
  ∧ (@esearch mock_models (mock_client (inr response)) ESearchRequest_asthma
       (fresh_world (inr response))).1 = Raise (ValidationError "invalid JSON").
Proof.
  intros response.
  destruct (@invalid_body_raises mock_models (mock_client (inr response)))
    as [Heinfo Hesearch].
  split.
  - apply (Heinfo EInfoRequest_default (fresh_world (inr response)) response ());
      [reflexivity | reflexivity | simpl; lia | reflexivity].
  - apply (Hesearch ESearchRequest_asthma (fresh_world (inr response)) response ());
      [reflexivity | reflexivity | simpl; lia | reflexivity].
Defined.

(** C9: when the return mode is JSON, the response to the GET has a success
    status and its body validates as the endpoint's response model, [einfo]
    and [esearch] return that model as the validation gave it. *)
Theorem valid_body_returned `{Models} `{AsyncClient} :
  (∀ (params : EInfoRequest.t) (w : World) (response : Response) c model,
     EInfoRequest.retmode params = Some JSON →
     client_get (client w) (BASE_URL +:+ "/einfo.fcgi")
       (model_dump_exclude_none params) = (inr response, c) →
     200 ≤ status_code response ≤ 299 →
     EInfoResponse_model_validate_json (text response) = inr model →
     (einfo params w).1 = Return model)
  ∧ (∀ (params : ESearchRequest.t) (w : World) (response : Response) c model,
       ESearchRequest.retmode params = Some JSON →
       client_get (client w) (BASE_URL +:+ "/esearch.fcgi")
         (model_dump_exclude_none params) = (inr response, c) →
       200 ≤ status_code response ≤ 299 →
       ESearchResponse_model_validate_json (text response) = inr model →
       (esearch params w).1 = Return model).
Proof.
  split; intros params w response c model Hjson Hget Hstatus Hvalid.
  - rewrite einfo_protocol, Hjson, protocol_json.
    change (BASE_URL +:+ "/" +:+ "einfo.fcgi") with (BASE_URL +:+ "/einfo.fcgi").
    rewrite Hget. simpl. unfold is_success.
    rewrite bool_decide_eq_true_2 by lia. by rewrite Hvalid.
  - rewrite esearch_protocol, Hjson, protocol_json.
    change (BASE_URL +:+ "/" +:+ "esearch.fcgi") with (BASE_URL +:+ "/esearch.fcgi").
    rewrite Hget. simpl. unfold is_success.
    rewrite bool_decide_eq_true_2 by lia. by rewrite Hvalid.
Qed.

Lemma valid_body_returned_witness :
  let response := mkResponse 200 "{}" in
  (@einfo mock_models (mock_client (inr response)) EInfoRequest_default
     (fresh_world (inr response))).1 = Return ["{}"]
  ∧ (@esearch mock_models (mock_client (inr response)) ESearchRequest_asthma
       (fresh_world (inr response))).1 = Return ["{}"].
Proof.
  intros response.
  destruct (@valid_body_returned mock_models (mock_client (inr response)))
    as [Heinfo Hesearch].
  split.
  - apply (Heinfo EInfoRequest_default (fresh_world (inr response)) response ());
      [reflexivity | reflexivity | simpl; lia | reflexivity].
  - apply (Hesearch ESearchRequest_asthma (fresh_world (inr response)) response ());
      [reflexivity | reflexivity | simpl; lia | reflexivity].
Defined.

(** ** The two endpoint functions against each other *)




(** ** Query construction *)

Section dump.
Implicit Types (fs : list (string * option Value)) (k : string) (v : Value).

Lemma items_keys fs k : k ∈ (items_exclude_none fs).*1 → k ∈ fs.*1.
Proof.
  induction fs as [|[k0 [v0|]] fs IH]; simpl.
  - done.
  - rewrite !elem_of_cons. intros [->|Hin]; auto.
  - rewrite elem_of_cons. auto.
Qed.

Lemma items_lookup fs k v :
  NoDup fs.*1 →
  (list_to_map (items_exclude_none fs) : gmap string Value) !! k = Some v
  ↔ (λ found, found.2.2) <$> list_find (λ kv, kv.1 = k) fs = Some (Some v).
Proof.
  induction fs as [|[k0 o0] fs IH]; simpl.
  - intros _. rewrite lookup_empty. done.
  - rewrite NoDup_cons. intros [Hfresh Hnodup].
    case_decide as Hk; simpl in Hk.
    + subst k0. destruct o0 as [v0|]; simpl.
      * rewrite lookup_insert_eq. split; congruence.
      * rewrite not_elem_of_list_to_map_1
          by (intros Hin; by apply Hfresh, items_keys).
        done.
    + rewrite <- option_fmap_compose. simpl.
      destruct o0 as [v0|]; simpl.
      * rewrite lookup_insert_ne by done. by apply IH.
      * by apply IH.
Qed.

Lemma EInfoRequest_fields_nodup (params : EInfoRequest.t) :
  NoDup (EInfoRequest.fields params).*1.
Proof. by apply (bool_decide_unpack _); vm_compute. Qed.

Lemma ESearchRequest_fields_nodup (params : ESearchRequest.t) :
  NoDup (ESearchRequest.fields params).*1.
Proof. by apply (bool_decide_unpack _); vm_compute. Qed.
End dump.

(** C2, as the code has it: the dump of a request holds a field exactly when
    the field holds a value other than [None], whether the caller provided it
    or the model's default did; so a field holding no value is never sent,
    and the return mode is sent as JSON also when the caller left it out. *)
Theorem dump_keeps_exactly_valued_fields :
  (∀ (params : EInfoRequest.t) (k : string) (v : Value),
     model_dump_exclude_none params !! k = Some v
     ↔ getattr params k = Some (Some v))
  ∧ (∀ (params : ESearchRequest.t) (k : string) (v : Value),
       model_dump_exclude_none params !! k = Some v
       ↔ getattr params k = Some (Some v))
  ∧ (∀ (params : EInfoRequest.t) (k : string),
       getattr params k = Some None →
       model_dump_exclude_none params !! k = None)
  ∧ (∀ (params : ESearchRequest.t) (k : string),
       getattr params k = Some None →
       model_dump_exclude_none params !! k = None)
  ∧ (∀ a_db a_version,
       model_dump_exclude_none (EInfoRequest.new a_db a_version Omitted)
         !! "retmode" = Some (VRetMode JSON))
  ∧ (∀ kw,
       ESearchRequest.a_retmode kw = Omitted →
       model_dump_exclude_none (ESearchRequest.new kw)
         !! "retmode" = Some (VRetMode JSON)).
Proof.
  assert (Heinfo : ∀ (params : EInfoRequest.t) k v,
            model_dump_exclude_none params !! k = Some v
            ↔ getattr params k = Some (Some v)).
  { intros params k v. apply items_lookup, EInfoRequest_fields_nodup. }
  assert (Hesearch : ∀ (params : ESearchRequest.t) k v,
            model_dump_exclude_none params !! k = Some v
            ↔ getattr params k = Some (Some v)).
  { intros params k v. apply items_lookup, ESearchRequest_fields_nodup. }
  split; [exact Heinfo|]. split; [exact Hesearch|].
  split; [|split; [|split]].
  - intros params k Hnone.
    destruct (model_dump_exclude_none params !! k) as [v|] eqn:Hdump; [|done].
    apply Heinfo in Hdump. congruence.
  - intros params k Hnone.
    destruct (model_dump_exclude_none params !! k) as [v|] eqn:Hdump; [|done].
    apply Hesearch in Hdump. congruence.
  - intros a_db a_version. by apply Heinfo.
  - intros kw Homitted. apply Hesearch.
    unfold getattr. simpl. by rewrite Homitted.
Qed.

Lemma dump_keeps_exactly_valued_fields_witness :
  model_dump_exclude_none EInfoRequest_default !! "db" = None
  ∧ model_dump_exclude_none ESearchRequest_asthma !! "retmode"
    = Some (VRetMode JSON).
Proof.
  destruct dump_keeps_exactly_valued_fields as (_ & _ & Hnone & _ & _ & Hdefault).
  split.
  - apply (Hnone EInfoRequest_default "db"). reflexivity.
  - apply (Hdefault
             (ESearchRequest.mk_kwargs Omitted (Given (Some "asthma")) Omitted
                Omitted Omitted Omitted Omitted Omitted Omitted)).
    reflexivity.
Defined.

(** C2 as stated fails: [EInfoRequest()] was given no field, and its dump
    holds the return mode all the same. *)
Lemma dump_sends_unprovided_default :
("retmode" ∉ model_fields_set EInfoRequest_default)
  ∧ model_dump_exclude_none EInfoRequest_default !! "retmode"
    = Some (VRetMode JSON).
Proof. split; [by vm_compute | reflexivity]. Qed.



(** * Further properties of the endpoint functions *)

(** ** Reading an outcome backwards *)

Section inversion.
Context `{Models} `{AsyncClient}.

(** A value comes out of the protocol only through a 2xx response whose body
    validated to it. *)
Lemma protocol_return_inv {A} name path (validate : string → string + A)
    retmode query_params (w : World) (model : A) :
  (endpoint_protocol name path validate retmode query_params w).1 = Return model →
  retmode = Some JSON
  ∧ ∃ response,
      (client_get (client w) (BASE_URL +:+ "/" +:+ path) query_params).1
      = inr response
      ∧ 200 ≤ status_code response ≤ 299
      ∧ validate (text response) = inr model.
Proof.
  destruct (decide (retmode = Some JSON)) as [->|Hne].
  - rewrite protocol_json. simpl. intros Hret. split; [done|].
    destruct (client_get (client w) _ _).1 as [msg|response]; [done|].
    exists response. split; [done|].
    unfold is_success in Hret. case_bool_decide as Hstatus; [|done].
    split; [done|].
    destruct (validate (text response)) as [msg|model']; [done|].
    by inversion Hret.
  - by rewrite protocol_unsupported.
Qed.

(** An exception leaves the protocol from one of four places, each with its
    own condition. *)
Lemma protocol_raise_inv {A} name path (validate : string → string + A)
    retmode query_params (w : World) (e : Exception) :
  (endpoint_protocol name path validate retmode query_params w).1 = Raise e →
  (retmode ≠ Some JSON
   ∧ e = ValueError
           ("We only support " +:+ fstring (Some JSON)
            +:+ " return mode for " +:+ name +:+ " at this time. You provided "
            +:+ fstring retmode +:+ ".")
   ∧ (endpoint_protocol name path validate retmode query_params w).2 = w)
  ∨ (retmode = Some JSON
     ∧ ∃ msg,
         (client_get (client w) (BASE_URL +:+ "/" +:+ path) query_params).1
         = inl msg
         ∧ e = RequestError msg)
  ∨ (retmode = Some JSON
     ∧ ∃ response,
         (client_get (client w) (BASE_URL +:+ "/" +:+ path) query_params).1
         = inr response
         ∧ ¬ (200 ≤ status_code response ≤ 299)
         ∧ e = HTTPStatusError response)
  ∨ (retmode = Some JSON
     ∧ ∃ response msg,
         (client_get (client w) (BASE_URL +:+ "/" +:+ path) query_params).1
         = inr response
         ∧ 200 ≤ status_code response ≤ 299
         ∧ validate (text response) = inl msg
         ∧ e = ValidationError msg).
Proof.
  destruct (decide (retmode = Some JSON)) as [->|Hne].
  - rewrite protocol_json. simpl.
    destruct (client_get (client w) _ _).1 as [msg|response].
    { intros [= <-]. right. left. split; [done|]. by exists msg. }
    unfold is_success. case_bool_decide as Hstatus.
    + destruct (validate (text response)) as [msg|model] eqn:Hvalid; [|done].
      intros [= <-]. do 3 right. split; [done|]. by exists response, msg.
    + intros [= <-]. do 2 right. left. split; [done|]. by exists response.
  - rewrite protocol_unsupported by done. simpl. intros [= <-]. by left.
Qed.
End inversion.

(** X1: when the return mode is JSON and the client's [get] fails, [einfo]
    and [esearch] let that transport error through as it is, after the one
    GET and with the client as the failed [get] left it. *)
Theorem transport_error_propagates `{Models} `{AsyncClient} :
  (∀ (params : EInfoRequest.t) (w : World) msg c,
     EInfoRequest.retmode params = Some JSON →
     client_get (client w) (BASE_URL +:+ "/einfo.fcgi")
       (model_dump_exclude_none params) = (inl msg, c) →
     einfo params w =
     (Raise (RequestError msg),
      {| client := c;
         calls := calls w ++ [(BASE_URL +:+ "/einfo.fcgi",
                               model_dump_exclude_none params)] |}))
  ∧ (∀ (params : ESearchRequest.t) (w : World) msg c,
       ESearchRequest.retmode params = Some JSON →
       client_get (client w) (BASE_URL +:+ "/esearch.fcgi")
         (model_dump_exclude_none params) = (inl msg, c) →
       esearch params w =
       (Raise (RequestError msg),
        {| client := c;
           calls := calls w ++ [(BASE_URL +:+ "/esearch.fcgi",
                                 model_dump_exclude_none params)] |})).
Proof.
  split; intros params w msg c Hjson Hget.
  - rewrite einfo_protocol, Hjson, protocol_json.
    change (BASE_URL +:+ "/" +:+ "einfo.fcgi") with (BASE_URL +:+ "/einfo.fcgi").
    by rewrite Hget.
  - rewrite esearch_protocol, Hjson, protocol_json.
    change (BASE_URL +:+ "/" +:+ "esearch.fcgi") with (BASE_URL +:+ "/esearch.fcgi").
    by rewrite Hget.
Qed.

Lemma transport_error_propagates_witness :
  let outcome := inl "connection refused" in
  (@einfo mock_models (mock_client outcome) EInfoRequest_default
     (fresh_world outcome)).1 = Raise (RequestError "connection refused")
  ∧ (@esearch mock_models (mock_client outcome) ESearchRequest_asthma
       (fresh_world outcome)).1 = Raise (RequestError "connection refused").
Proof.
  intros outcome.
  destruct (@transport_error_propagates mock_models (mock_client outcome))
    as [Heinfo Hesearch].
  split.
  - rewrite (Heinfo EInfoRequest_default (fresh_world outcome)
               "connection refused" ()); reflexivity.
  - rewrite (Hesearch ESearchRequest_asthma (fresh_world outcome)
               "connection refused" ()); reflexivity.
Defined.

(** X2: a model returned by [einfo] or [esearch] is always the validation of
    the body of a 2xx response to the call's own GET, on a request whose
    return mode is JSON; there is no other way to a return value. *)
Theorem returned_model_is_validated_body `{Models} `{AsyncClient} :
  (∀ (params : EInfoRequest.t) (w : World) model,
     (einfo params w).1 = Return model →
     EInfoRequest.retmode params = Some JSON
     ∧ ∃ response,
         (client_get (client w) (BASE_URL +:+ "/einfo.fcgi")
            (model_dump_exclude_none params)).1 = inr response
         ∧ 200 ≤ status_code response ≤ 299
         ∧ EInfoResponse_model_validate_json (text response) = inr model)
  ∧ (∀ (params : ESearchRequest.t) (w : World) model,
       (esearch params w).1 = Return model →
       ESearchRequest.retmode params = Some JSON
       ∧ ∃ response,
           (client_get (client w) (BASE_URL +:+ "/esearch.fcgi")
              (model_dump_exclude_none params)).1 = inr response
           ∧ 200 ≤ status_code response ≤ 299
           ∧ ESearchResponse_model_validate_json (text response) = inr model).
Proof.
  split; intros params w model Hret.
  - rewrite einfo_protocol in Hret. by apply protocol_return_inv in Hret.
  - rewrite esearch_protocol in Hret. by apply protocol_return_inv in Hret.
Qed.

Lemma returned_model_is_validated_body_witness :
  let response := mkResponse 200 "{}" in
  EInfoRequest.retmode EInfoRequest_default = Some JSON
  ∧ ∃ r,
      (@client_get (mock_client (inr response)) ()
         (BASE_URL +:+ "/einfo.fcgi")
         (model_dump_exclude_none EInfoRequest_default)).1 = inr r
      ∧ 200 ≤ status_code r ≤ 299
      ∧ mock_validate (text r) = inr ["{}"].
Proof.
  intros response.
  apply (proj1 (@returned_model_is_validated_body mock_models
                  (mock_client (inr response)))
           EInfoRequest_default (fresh_world (inr response)) ["{}"]).
  reflexivity.
Defined.

(** X3: when [einfo] or [esearch] raises, it is from one of four places,
    each with its own condition: the mode check, on a return mode that is
    not JSON, with the message of that check and the world untouched; the
    call's own GET, whose failure is passed on; the status check, on a
    response to that GET whose status is not 2xx, which the error carries;
    or the validation, of the body of a 2xx response to that GET, whose
    error is passed on. *)
Theorem raise_has_one_of_four_causes `{Models} `{AsyncClient} :
  (∀ (params : EInfoRequest.t) (w : World) (e : Exception),
     (einfo params w).1 = Raise e →
     let mode := EInfoRequest.retmode params in
     let outcome :=
       (client_get (client w) (BASE_URL +:+ "/einfo.fcgi")
          (model_dump_exclude_none params)).1 in
     (mode ≠ Some JSON
      ∧ e = ValueError
              ("We only support " +:+ fstring (Some JSON)
               +:+ " return mode for EInfo at this time. You provided "
               +:+ fstring mode +:+ ".")
      ∧ (einfo params w).2 = w)
     ∨ (mode = Some JSON
        ∧ ∃ msg, outcome = inl msg ∧ e = RequestError msg)
     ∨ (mode = Some JSON
        ∧ ∃ response,
            outcome = inr response
            ∧ ¬ (200 ≤ status_code response ≤ 299)
            ∧ e = HTTPStatusError response)
     ∨ (mode = Some JSON
        ∧ ∃ response msg,
            outcome = inr response
            ∧ 200 ≤ status_code response ≤ 299
            ∧ EInfoResponse_model_validate_json (text response) = inl msg
            ∧ e = ValidationError msg))
  ∧ (∀ (params : ESearchRequest.t) (w : World) (e : Exception),
       (esearch params w).1 = Raise e →
       let mode := ESearchRequest.retmode params in
       let outcome :=
         (client_get (client w) (BASE_URL +:+ "/esearch.fcgi")
            (model_dump_exclude_none params)).1 in
       (mode ≠ Some JSON
        ∧ e = ValueError
                ("We only support " +:+ fstring (Some JSON)
                 +:+ " return mode for ESearch at this time. You provided "
                 +:+ fstring mode +:+ ".")
        ∧ (esearch params w).2 = w)
       ∨ (mode = Some JSON
          ∧ ∃ msg, outcome = inl msg ∧ e = RequestError msg)
       ∨ (mode = Some JSON
          ∧ ∃ response,
              outcome = inr response
              ∧ ¬ (200 ≤ status_code response ≤ 299)
              ∧ e = HTTPStatusError response)
       ∨ (mode = Some JSON
          ∧ ∃ response msg,
              outcome = inr response
              ∧ 200 ≤ status_code response ≤ 299
              ∧ ESearchResponse_model_validate_json (text response) = inl msg
              ∧ e = ValidationError msg)).
Proof.
  split; intros params w e Hraise mode outcome; subst mode outcome.
  - rewrite einfo_protocol in Hraise.
    exact (protocol_raise_inv _ _ _ _ _ _ _ Hraise).
  - rewrite esearch_protocol in Hraise.
    exact (protocol_raise_inv _ _ _ _ _ _ _ Hraise).
Qed.

Lemma raise_has_one_of_four_causes_witness :
  let response := mkResponse 500 "oops" in
  ∃ r,
    (@client_get (mock_client (inr response)) ()
       (BASE_URL +:+ "/einfo.fcgi")
       (model_dump_exclude_none EInfoRequest_default)).1 = inr r
    ∧ ¬ (200 ≤ status_code r ≤ 299)
    ∧ HTTPStatusError response = HTTPStatusError r.
Proof.
  intros response.
  destruct (proj1 (@raise_has_one_of_four_causes mock_models
                     (mock_client (inr response)))
              EInfoRequest_default (fresh_world (inr response))
              (HTTPStatusError response) eq_refl)
    as [(_ & Hmode & _)
       |[(_ & msg & _ & Htransport)
        |[(_ & Hstatus)
         |(_ & r & msg & _ & _ & _ & Hvalidation)]]].
  - discriminate Hmode.
  - discriminate Htransport.
  - exact Hstatus.
  - discriminate Hvalidation.
Defined.

(** ** What goes out with a GET *)

(** X4: every GET that [einfo] or [esearch] issues carries the return mode
    JSON among its query parameters, so its query is never empty. *)
Theorem issued_get_asks_for_json `{Models} `{AsyncClient} :
  (∀ (params : EInfoRequest.t) (w : World) url (query : gmap string Value),
     calls (einfo params w).2 = calls w ++ [(url, query)] →
     query !! "retmode" = Some (VRetMode JSON) ∧ query ≠ ∅)
  ∧ (∀ (params : ESearchRequest.t) (w : World) url (query : gmap string Value),
       calls (esearch params w).2 = calls w ++ [(url, query)] →
       query !! "retmode" = Some (VRetMode JSON) ∧ query ≠ ∅).
Proof.
  assert (Hne : ∀ query : gmap string Value,
            query !! "retmode" = Some (VRetMode JSON) →
            query !! "retmode" = Some (VRetMode JSON) ∧ query ≠ ∅).
  { intros query Hlook. split; [done|]. intros ->.
    by rewrite lookup_empty in Hlook. }
  split; intros params w url query Hcalls; apply Hne.
  - rewrite einfo_protocol, protocol_calls in Hcalls.
    apply app_inv_head in Hcalls.
    case_decide as Hjson; [|done].
    injection Hcalls as _ <-.
    apply items_lookup; [apply EInfoRequest_fields_nodup|].
    change (Some (VRetMode <$> EInfoRequest.retmode params)
            = Some (Some (VRetMode JSON))).
    by rewrite Hjson.
  - rewrite esearch_protocol, protocol_calls in Hcalls.
    apply app_inv_head in Hcalls.
    case_decide as Hjson; [|done].
    injection Hcalls as _ <-.
    apply items_lookup; [apply ESearchRequest_fields_nodup|].
    change (Some (VRetMode <$> ESearchRequest.retmode params)
            = Some (Some (VRetMode JSON))).
    by rewrite Hjson.
Qed.

Lemma issued_get_asks_for_json_witness :
  let outcome : string + Response := inr (mkResponse 200 "{}") in
  model_dump_exclude_none ESearchRequest_asthma !! "retmode"
  = Some (VRetMode JSON)
  ∧ model_dump_exclude_none ESearchRequest_asthma ≠ ∅.
Proof.
  intros outcome.
  apply (proj2 (@issued_get_asks_for_json mock_models (mock_client outcome))
           ESearchRequest_asthma (fresh_world outcome)
           (BASE_URL +:+ "/esearch.fcgi")).
  reflexivity.
Defined.

(** X5: [einfo] and [esearch] look at the values of the request's fields
    and not at which of them the caller set: two requests with the same
    field values behave alike, so leaving the return mode out and giving
    JSON explicitly, or leaving a field out and giving it as [None], make
    no difference. *)
Theorem explicitly_set_fields_irrelevant `{Models} `{AsyncClient} :
  (∀ p1 p2 : EInfoRequest.t,
     model_fields p1 = model_fields p2 → einfo p1 = einfo p2)
  ∧ (∀ q1 q2 : ESearchRequest.t,
       model_fields q1 = model_fields q2 → esearch q1 = esearch q2).
Proof.
  split.
  - intros p1 p2 Hfields. rewrite !einfo_protocol.
    unfold model_dump_exclude_none. rewrite Hfields.
    assert (EInfoRequest.retmode p1 = EInfoRequest.retmode p2) as ->; [|done].
    injection Hfields as _ _ Hmode.
    destruct (EInfoRequest.retmode p1), (EInfoRequest.retmode p2);
      simpl in Hmode; congruence.
  - intros q1 q2 Hfields. rewrite !esearch_protocol.
    unfold model_dump_exclude_none. rewrite Hfields.
    assert (ESearchRequest.retmode q1 = ESearchRequest.retmode q2) as ->; [|done].
    injection Hfields as _ _ Hmode _.
    destruct (ESearchRequest.retmode q1), (ESearchRequest.retmode q2);
      simpl in Hmode; congruence.
Qed.

Lemma explicitly_set_fields_irrelevant_witness :
  let outcome := inr (mkResponse 200 "{}") in
  @einfo mock_models (mock_client outcome)
    (EInfoRequest.new Omitted Omitted Omitted)
  = @einfo mock_models (mock_client outcome)
      (EInfoRequest.new (Given None) Omitted (Given (Some JSON))).
Proof.
  intros outcome.
  apply (proj1 (@explicitly_set_fields_irrelevant mock_models
                  (mock_client outcome))).
  reflexivity.
Defined.
